(** * The PBIL helper interface, [c_src/helper_pbil.h]

    The repository's only source file is a C header.  This development
    embeds the header as the text it is, together with the small amount
    of C front-end needed to read it: line splitting, a lexer, a reader
    of top-level items (prototypes, function definitions, type
    definitions) and the conditional-inclusion part of the preprocessor.
    All statements below are about the result of running that front-end
    on the text of the header. *)

From Stdlib Require Import List String Ascii Bool Arith.
Import ListNotations.

Local Open Scope string_scope.
Local Open Scope list_scope.

(** ** The source text *)

Module Source.

Definition LF : ascii := "010"%char.
Definition dquote : ascii := "034"%char.

(** [quoted s] is [s] between two double-quote characters. *)
Definition quoted (s : string) : string :=
  String dquote (s ++ String dquote EmptyString).

(** Lines are joined by a line feed; nothing follows the last one. *)
Fixpoint join_lines (ls : list string) : string :=
  match ls with
  | [] => EmptyString
  | [l] => l
  | l :: rest => (l ++ String LF (join_lines rest))%string
  end.

(** The lines of [helper_pbil.h], in order. *)
Definition helper_pbil_h_lines : list string :=
  [ "#ifndef HELPER_PBIL_H"
  ; "#define HELPER_PBIL_H"
  ; ""
  ; ("#include " ++ quoted "datatypes.h")%string
  ; ""
  ; "// Function declarations for PBIL helper functions"
  ; ""
  ; "// Generate population from probability vector"
  ; "int** generate_population(int** current_population, double* prob_vector, int pop_size, int length);"
  ; ""
  ; "// Update probability vector based on best and worst individuals"
  ; "double* update_prob_vector(double* prob_vector, int length, int* best_vector, int* worst_vector, double lr, double negative_lr);"
  ; ""
  ; "// Find best individual in population"
  ; "int* findBest(int** current_population, int pop_size, int length, problem* prob);"
  ; ""
  ; "// Find worst individual in population"
  ; "int* findWorst(int** current_population, int pop_size, int length, int max_fitness, problem* prob);"
  ; ""
  ; "// Mutate probability vector"
  ; "double* mutate(double* prob_vector, double mut_probability, double mut_shift);"
  ; ""
  ; "#endif "
  ].

(** The file as it is on disk: the last line, [#endif] and one space, is
    not followed by a line feed. *)
Definition helper_pbil_h : string := join_lines helper_pbil_h_lines.

(** The supplied material: file names with their contents. *)
Definition supplied : list (string * string) :=
  [ ("helper_pbil.h", helper_pbil_h) ].

End Source.

(** ** Lines *)

Module Lines.

Import Source.

(** [split_lines s] cuts [s] at every line feed.  A text with [n] line
    feeds has [n + 1] lines, the last one possibly empty. *)
Fixpoint split_lines_aux (s : string) (cur : string) : list string :=
  match s with
  | EmptyString => [cur]
  | String c rest =>
      if Ascii.eqb c LF
      then cur :: split_lines_aux rest EmptyString
      else split_lines_aux rest (cur ++ String c EmptyString)%string
  end.

Definition split_lines (s : string) : list string :=
  split_lines_aux s EmptyString.

Fixpoint count_char (c : ascii) (s : string) : nat :=
  match s with
  | EmptyString => 0
  | String d rest => (if Ascii.eqb d c then 1 else 0) + count_char c rest
  end.

(** What [wc -l] reports: the number of line feeds. *)
Definition newline_count (s : string) : nat := count_char LF s.

(** The lines of a text, as POSIX and [wc -l] have them: the stretches
    that a line feed ends.  What follows the last line feed is not a
    line; it is the [trailing] text, empty when the text ends with a
    line feed. *)
Definition complete_lines (s : string) : list string :=
  removelast (split_lines s).

Definition trailing (s : string) : string :=
  last (split_lines s) EmptyString.

Definition line_count (s : string) : nat :=
  List.length (complete_lines s).

(** Whether the text ends with a line feed. *)
Fixpoint ends_with_newline (s : string) : bool :=
  match s with
  | EmptyString => false
  | String c EmptyString => Ascii.eqb c LF
  | String _ rest => ends_with_newline rest
  end.

End Lines.

(** ** Lexer *)

Module Lexer.

Definition is_space (c : ascii) : bool :=
  let n := nat_of_ascii c in
  ((n =? 32) || (n =? 9) || (n =? 13) || (n =? 10))%nat.

Definition is_ident_char (c : ascii) : bool :=
  let n := nat_of_ascii c in
  (((65 <=? n) && (n <=? 90)) || ((97 <=? n) && (n <=? 122))
   || ((48 <=? n) && (n <=? 57)) || (n =? 95))%nat.

Inductive token : Type :=
| TId (s : string)
| TStar
| TLParen
| TRParen
| TComma
| TSemi
| TLBrace
| TRBrace
| TOther (c : ascii).

Definition token_eqb (a b : token) : bool :=
  match a, b with
  | TId s, TId t => String.eqb s t
  | TStar, TStar | TLParen, TLParen | TRParen, TRParen
  | TComma, TComma | TSemi, TSemi | TLBrace, TLBrace
  | TRBrace, TRBrace => true
  | TOther c, TOther d => Ascii.eqb c d
  | _, _ => false
  end.

Definition punct (c : ascii) : token :=
  match nat_of_ascii c with
  | 42 => TStar
  | 40 => TLParen
  | 41 => TRParen
  | 44 => TComma
  | 59 => TSemi
  | 123 => TLBrace
  | 125 => TRBrace
  | _ => TOther c
  end.

(** Flush the identifier being read, if any. *)
Definition flush (cur : string) (k : list token) : list token :=
  match cur with
  | EmptyString => k
  | _ => TId cur :: k
  end.

Fixpoint tokenize_aux (s : string) (cur : string) : list token :=
  match s with
  | EmptyString => flush cur []
  | String c rest =>
      if is_ident_char c
      then tokenize_aux rest (cur ++ String c EmptyString)%string
      else if is_space c
      then flush cur (tokenize_aux rest EmptyString)
      else flush cur (punct c :: tokenize_aux rest EmptyString)
  end.

Definition tokenize (s : string) : list token :=
  tokenize_aux s EmptyString.

(** String helpers used on raw lines. *)
Fixpoint drop_space (s : string) : string :=
  match s with
  | String c rest => if is_space c then drop_space rest else s
  | EmptyString => EmptyString
  end.

Fixpoint take_ident (s : string) : string :=
  match s with
  | String c rest =>
      if is_ident_char c then String c (take_ident rest) else EmptyString
  | EmptyString => EmptyString
  end.

Fixpoint drop_ident (s : string) : string :=
  match s with
  | String c rest => if is_ident_char c then drop_ident rest else s
  | EmptyString => EmptyString
  end.

Fixpoint take_until (stop : ascii) (s : string) : string :=
  match s with
  | String c rest =>
      if Ascii.eqb c stop then EmptyString
      else String c (take_until stop rest)
  | EmptyString => EmptyString
  end.

(** The part of a line before a [//] comment. *)
Fixpoint strip_line_comment (s : string) : string :=
  match s with
  | String c rest =>
      match rest with
      | String d _ =>
          if (Ascii.eqb c "/"%char) && (Ascii.eqb d "/"%char) then EmptyString
          else String c (strip_line_comment rest)
      | EmptyString => s
      end
  | EmptyString => EmptyString
  end.

End Lexer.

(** ** Syntax of the top level of a C file *)

Module Syntax.

Import Source Lexer.

Inductive ctype : Type :=
| Tint
| Tdouble
| Tvoid
| Tchar
| Tfloat
| Tnamed (n : string)
| Tptr (t : ctype).

Fixpoint ctype_eqb (a b : ctype) : bool :=
  match a, b with
  | Tint, Tint | Tdouble, Tdouble | Tvoid, Tvoid
  | Tchar, Tchar | Tfloat, Tfloat => true
  | Tnamed n, Tnamed m => String.eqb n m
  | Tptr t, Tptr u => ctype_eqb t u
  | _, _ => false
  end.

(** The base of a type, under all its stars. *)
Fixpoint base_of (t : ctype) : ctype :=
  match t with
  | Tptr u => base_of u
  | _ => t
  end.

Definition is_pointer (t : ctype) : bool :=
  match t with
  | Tptr _ => true
  | _ => false
  end.

(** The type names a type mentions that are not built into C. *)
Definition named_in (t : ctype) : list string :=
  match base_of t with
  | Tnamed n => [n]
  | _ => []
  end.

Record param : Type := { ptype : ctype; pname : string }.

Record prototype : Type :=
  { ret : ctype; fname : string; params : list param }.

Inductive item : Type :=
| IProto (p : prototype)          (* a function declaration, ended by [;] *)
| IFunDef (ts : list token)       (* a function with a body *)
| ITypeDef (ts : list token)      (* typedef, or struct/union/enum with members *)
| IOther (ts : list token).       (* any other top-level text *)

Inductive directive : Type :=
| DIfndef (m : string)
| DIfdef (m : string)
| DDefine (m : string)
| DUndef (m : string)
| DInclude (f : string)
| DEndif
| DUnknown (s : string).

Inductive line : Type :=
| LBlank
| LComment (s : string)
| LDirective (d : directive)
| LCode (ts : list token).

End Syntax.

(** ** Parser *)

Module Parser.

Import Source Lines Lexer Syntax.

Definition base_type (s : string) : ctype :=
  if String.eqb s "int" then Tint
  else if String.eqb s "double" then Tdouble
  else if String.eqb s "void" then Tvoid
  else if String.eqb s "char" then Tchar
  else if String.eqb s "float" then Tfloat
  else Tnamed s.

Fixpoint add_stars (t : ctype) (ts : list token) : option ctype :=
  match ts with
  | [] => Some t
  | TStar :: r => add_stars (Tptr t) r
  | _ => None
  end.

Definition parse_type (ts : list token) : option ctype :=
  match ts with
  | TId b :: r => add_stars (base_type b) r
  | _ => None
  end.

(** A type followed by the name it is given: [double* prob_vector]. *)
Definition parse_typed_name (ts : list token) : option (ctype * string) :=
  match rev ts with
  | TId n :: rtype =>
      match parse_type (rev rtype) with
      | Some t => Some (t, n)
      | None => None
      end
  | _ => None
  end.

Fixpoint split_commas (ts cur : list token) : list (list token) :=
  match ts with
  | [] => [rev cur]
  | TComma :: r => rev cur :: split_commas r []
  | t :: r => split_commas r (t :: cur)
  end.

Fixpoint parse_param_list (chunks : list (list token)) : option (list param) :=
  match chunks with
  | [] => Some []
  | c :: r =>
      match parse_typed_name c, parse_param_list r with
      | Some (t, n), Some ps => Some ({| ptype := t; pname := n |} :: ps)
      | _, _ => None
      end
  end.

Definition parse_params (args : list token) : option (list param) :=
  match args with
  | [] => Some []
  | [TId v] =>
      if String.eqb v "void" then Some []
      else parse_param_list (split_commas args [])
  | _ => parse_param_list (split_commas args [])
  end.

Fixpoint before (stop : token) (ts : list token) : list token :=
  match ts with
  | [] => []
  | t :: r => if token_eqb t stop then [] else t :: before stop r
  end.

Fixpoint after (stop : token) (ts : list token) : option (list token) :=
  match ts with
  | [] => None
  | t :: r => if token_eqb t stop then Some r else after stop r
  end.

Definition is_type_keyword (s : string) : bool :=
  String.eqb s "struct" || String.eqb s "union" || String.eqb s "enum".

Definition has_brace (ts : list token) : bool :=
  existsb (token_eqb TLBrace) ts.

(** Items that do not end at the brace that closes them: a typedef,
    and a struct, union or enum, all run to the next [;]. *)
Definition runs_to_semicolon (ts : list token) : bool :=
  match ts with
  | TId k :: _ => String.eqb k "typedef" || is_type_keyword k
  | _ => false
  end.

Definition is_type_definition (ts : list token) : bool :=
  match ts with
  | TId k :: _ =>
      String.eqb k "typedef" || (is_type_keyword k && has_brace ts)
  | _ => false
  end.

(** Cut a token stream into top-level items: an item ends at a [;]
    outside braces, or at the [}] that closes a function body. *)
Fixpoint split_items (ts : list token) (depth : nat) (cur : list token)
  : list (list token) :=
  match ts with
  | [] => match cur with [] => [] | _ => [rev cur] end
  | t :: r =>
      match t with
      | TLBrace => split_items r (S depth) (t :: cur)
      | TRBrace =>
          if Nat.eqb (pred depth) 0 && negb (runs_to_semicolon (rev cur))
          then rev (t :: cur) :: split_items r 0 []
          else split_items r (pred depth) (t :: cur)
      | TSemi =>
          if Nat.eqb depth 0
          then rev (t :: cur) :: split_items r 0 []
          else split_items r depth (t :: cur)
      | _ => split_items r depth (t :: cur)
      end
  end.

Definition classify_item (ts : list token) : item :=
  if is_type_definition ts then ITypeDef ts
  else
    match after TLParen ts with
    | None => IOther ts
    | Some inside =>
        match after TRParen inside with
        | Some (TLBrace :: _) => IFunDef ts
        | Some [TSemi] =>
            match parse_typed_name (before TLParen ts),
                  parse_params (before TRParen inside) with
            | Some (t, n), Some ps =>
                IProto {| ret := t; fname := n; params := ps |}
            | _, _ => IOther ts
            end
        | _ => IOther ts
        end
    end.

Definition parse_directive (s : string) : directive :=
  let s := drop_space s in
  let kw := take_ident s in
  let arg := drop_space (drop_ident s) in
  if String.eqb kw "ifndef" then DIfndef (take_ident arg)
  else if String.eqb kw "ifdef" then DIfdef (take_ident arg)
  else if String.eqb kw "define" then DDefine (take_ident arg)
  else if String.eqb kw "undef" then DUndef (take_ident arg)
  else if String.eqb kw "endif" then DEndif
  else if String.eqb kw "include" then
    match arg with
    | String c rest =>
        if Ascii.eqb c dquote then DInclude (take_until dquote rest)
        else if Ascii.eqb c "<"%char then DInclude (take_until ">"%char rest)
        else DUnknown s
    | EmptyString => DUnknown s
    end
  else DUnknown s.

Definition classify_line (s : string) : line :=
  match drop_space s with
  | EmptyString => LBlank
  | String c rest as t =>
      if Ascii.eqb c "#"%char then LDirective (parse_directive rest)
      else match strip_line_comment t with
           | EmptyString => LComment t
           | code => LCode (tokenize code)
           end
  end.

Definition parse_lines (text : string) : list line :=
  map classify_line (split_lines text).

Definition code_tokens (ls : list line) : list token :=
  flat_map (fun l => match l with LCode ts => ts | _ => [] end) ls.

Definition directives (ls : list line) : list directive :=
  flat_map (fun l => match l with LDirective d => [d] | _ => [] end) ls.

Definition items (text : string) : list item :=
  map classify_item (split_items (code_tokens (parse_lines text)) 0 []).

Definition prototypes (text : string) : list prototype :=
  flat_map (fun i => match i with IProto p => [p] | _ => [] end)
           (items text).

(** Files named by [#include] directives. *)
Definition includes (text : string) : list string :=
  flat_map (fun d => match d with DInclude f => [f] | _ => [] end)
           (directives (parse_lines text)).

(** Type names a file gives a definition to: the name after [struct],
    [union] or [enum] when members follow, and the last name of a
    [typedef]. *)
Definition defined_by (i : item) : list string :=
  match i with
  | ITypeDef ts =>
      match ts with
      | TId k :: TId n :: _ =>
          if is_type_keyword k then [n]
          else match rev ts with
               | TSemi :: TId m :: _ => [m]
               | _ => []
               end
      | _ =>
          match rev ts with
          | TSemi :: TId m :: _ => [m]
          | _ => []
          end
      end
  | _ => []
  end.

Definition defined_types (text : string) : list string :=
  flat_map defined_by (items text).

(** Type names a prototype refers to, result first. *)
Definition referenced_by (p : prototype) : list string :=
  named_in (ret p) ++ flat_map (fun q => named_in (ptype q)) (params p).

Definition referenced_types (text : string) : list string :=
  flat_map referenced_by (prototypes text).

End Parser.


(** ** Conditional inclusion *)

Module Preprocessor.

Import Source Lines Lexer Syntax Parser.

(** Where a line of the preprocessed unit comes from. *)
Inductive origin : Type :=
| FromUnit
| FromFile (f : string).

Definition origin_eqb (a b : origin) : bool :=
  match a, b with
  | FromUnit, FromUnit => true
  | FromFile f, FromFile g => String.eqb f g
  | _, _ => false
  end.

Record env : Type :=
  { defined : list string;                    (* macros defined so far *)
    output : list (origin * list token) }.    (* code lines let through *)

Definition is_defined (m : string) (e : env) : bool :=
  existsb (String.eqb m) (defined e).

Definition define (m : string) (e : env) : env :=
  {| defined := m :: defined e; output := output e |}.

Definition undef (m : string) (e : env) : env :=
  {| defined := filter (fun x => negb (String.eqb m x)) (defined e);
     output := output e |}.

Definition emit (o : origin) (ts : list token) (e : env) : env :=
  {| defined := defined e; output := output e ++ [(o, ts)] |}.

(** A line is live when every enclosing conditional group is. *)
Definition live (stack : list bool) : bool := forallb (fun b => b) stack.

(** One line through the preprocessor.  The directives interpreted are
    those the header is written with, [#ifndef], [#define], [#include]
    and [#endif], and their converses [#ifdef] and [#undef].  Any other
    directive is [DUnknown] and is passed over: [pp_lines] is meant for
    the header and for units written with these six directives. *)
Definition pp_line (self : origin) (resolve : string -> env -> env)
           (l : line) (stack : list bool) (e : env) : list bool * env :=
  match l with
  | LDirective (DIfndef m) => (negb (is_defined m e) :: stack, e)
  | LDirective (DIfdef m) => (is_defined m e :: stack, e)
  | LDirective DEndif => (tl stack, e)
  | LDirective (DDefine m) =>
      (stack, if live stack then define m e else e)
  | LDirective (DUndef m) =>
      (stack, if live stack then undef m e else e)
  | LDirective (DInclude f) =>
      (stack, if live stack then resolve f e else e)
  | LDirective (DUnknown _) => (stack, e)
  | LCode ts => (stack, if live stack then emit self ts e else e)
  | LBlank | LComment _ => (stack, e)
  end.

Fixpoint pp_lines (self : origin) (resolve : string -> env -> env)
         (ls : list line) (stack : list bool) (e : env) : env :=
  match ls with
  | [] => e
  | l :: rest =>
      let '(stack', e') := pp_line self resolve l stack e in
      pp_lines self resolve rest stack' e'
  end.

Definition HELPER_PBIL_H : string := "HELPER_PBIL_H".

Definition helper_origin : origin := FromFile "helper_pbil.h".

(** One inclusion of [helper_pbil.h].  The header it includes in turn,
    [datatypes.h], is not part of the supplied source: its effect on
    the environment is the argument [datatypes_h]. *)
Definition include_helper (datatypes_h : env -> env) (e : env) : env :=
  pp_lines helper_origin
           (fun f => if String.eqb f "datatypes.h" then datatypes_h
                     else fun e => e)
           (parse_lines helper_pbil_h) [] e.



(** The code lines of the unit that come from [helper_pbil.h]. *)
Definition from_helper (out : list (origin * list token))
  : list (list token) :=
  map snd (filter (fun x => origin_eqb (fst x) helper_origin) out).

(** The prototypes [helper_pbil.h] contributes to the unit. *)
Definition helper_prototypes (e : env) : list prototype :=
  flat_map (fun i => match i with IProto p => [p] | _ => [] end)
    (map classify_item
         (split_items (List.concat (from_helper (output e))) 0 [])).

(** What a translation unit does, one step after the other, as far as
    the header is concerned.  It includes [helper_pbil.h], directly or
    through another header (an inclusion that a conditional group skips
    does not happen, and is no step); or it does something else to the
    environment: a line of its own code, a directive, the text of
    another header. *)
Inductive action : Type :=
| Include
| Other (f : env -> env).


Definition act (datatypes_h : env -> env) (a : action) (e : env) : env :=
  match a with
  | Include => include_helper datatypes_h e
  | Other f => f e
  end.

Definition run (datatypes_h : env -> env) (acts : list action) (e : env)
  : env :=
  fold_left (fun e a => act datatypes_h a e) acts e.

(** A step that does not undefine the guard macro. *)
Definition keeps_guard (f : env -> env) : Prop :=
  forall e, is_defined HELPER_PBIL_H e = true ->
            is_defined HELPER_PBIL_H (f e) = true.

(** A step that neither defines nor undefines the guard macro. *)
Definition leaves_guard_alone (f : env -> env) : Prop :=
  forall e, is_defined HELPER_PBIL_H (f e) = is_defined HELPER_PBIL_H e.

(** A step that lets through no line of [helper_pbil.h] itself. *)
Definition adds_no_helper_code (f : env -> env) : Prop :=
  forall e, from_helper (output (f e)) = from_helper (output e).

Definition never_undefines (a : action) : Prop :=
  match a with
  | Include => True
  | Other f => keeps_guard f /\ adds_no_helper_code f
  end.

Definition leaves_header_alone (a : action) : Prop :=
  match a with
  | Include => True
  | Other f => leaves_guard_alone f /\ adds_no_helper_code f
  end.

(** A stand-in for the absent [datatypes.h]: it defines a guard macro
    of its own and declares the type [problem]. *)
Definition sample_datatypes_h (e : env) : env :=
  emit (FromFile "datatypes.h")
       (tokenize "typedef struct problem problem;")
       (define "DATATYPES_H" e).

(** The steps of a unit that includes the header twice, around code
    and directives of its own. *)
Definition sample_actions : list action :=
  [ Other (define "DEBUG");
    Include;
    Other (emit FromUnit (tokenize "int main(void) { return 0; }"));
    Other (undef "DEBUG");
    Include ].

(** The parsed lines of the header, and its code lines, computed once. *)
Definition helper_lines : list line :=
  Eval vm_compute in parse_lines helper_pbil_h.

Definition helper_code : list (list token) :=
  Eval vm_compute in
    flat_map (fun l => match l with LCode ts => [ts] | _ => [] end)
             (parse_lines helper_pbil_h).





(** A [datatypes.h] that includes [helper_pbil.h] back, between its own
    guard and its declaration of [problem]. *)
Definition circular_datatypes_h (e : env) : env :=
  emit (FromFile "datatypes.h")
       (tokenize "typedef struct problem problem;")
       (include_helper (fun e => e) (define "DATATYPES_H" e)).

End Preprocessor.

(** ** The declarations of the header, as read off the source *)

Module Header.

Import Syntax.

Definition int_pp : ctype := Tptr (Tptr Tint).      (* int**    *)
Definition int_p : ctype := Tptr Tint.              (* int*     *)
Definition double_p : ctype := Tptr Tdouble.        (* double*  *)
Definition problem_p : ctype := Tptr (Tnamed "problem").  (* problem* *)

Definition P (t : ctype) (n : string) : param :=
  {| ptype := t; pname := n |}.

Definition generate_population : prototype :=
  {| ret := int_pp;
     fname := "generate_population";
     params := [ P int_pp "current_population"; P double_p "prob_vector";
                 P Tint "pop_size"; P Tint "length" ] |}.

Definition update_prob_vector : prototype :=
  {| ret := double_p;
     fname := "update_prob_vector";
     params := [ P double_p "prob_vector"; P Tint "length";
                 P int_p "best_vector"; P int_p "worst_vector";
                 P Tdouble "lr"; P Tdouble "negative_lr" ] |}.

Definition findBest : prototype :=
  {| ret := int_p;
     fname := "findBest";
     params := [ P int_pp "current_population"; P Tint "pop_size";
                 P Tint "length"; P problem_p "prob" ] |}.

Definition findWorst : prototype :=
  {| ret := int_p;
     fname := "findWorst";
     params := [ P int_pp "current_population"; P Tint "pop_size";
                 P Tint "length"; P Tint "max_fitness";
                 P problem_p "prob" ] |}.

Definition mutate : prototype :=
  {| ret := double_p;
     fname := "mutate";
     params := [ P double_p "prob_vector"; P Tdouble "mut_probability";
                 P Tdouble "mut_shift" ] |}.

Definition declared : list prototype :=
  [ generate_population; update_prob_vector; findBest; findWorst; mutate ].

Definition helper_names : list string :=
  [ "generate_population"; "update_prob_vector"; "findBest"; "findWorst";
    "mutate" ].


Definition param_named (n : string) (p : prototype) : list param :=
  filter (fun q => String.eqb (pname q) n) (params p).

Definition has_param (n : string) (p : prototype) : bool :=
  existsb (fun q => String.eqb (pname q) n) (params p).

Definition drop_param (n : string) (p : prototype) : list param :=
  filter (fun q => negb (String.eqb (pname q) n)) (params p).

(** The declaration a file gives of the function named [n]. *)
Definition declaration (text : string) (n : string) : option prototype :=
  find (fun p => String.eqb (fname p) n) (Parser.prototypes text).

(** How many times a file declares the function named [n]. *)
Definition times_declared (text : string) (n : string) : nat :=
  count_occ string_dec (map fname (Parser.prototypes text)) n.

End Header.


(** * Properties *)

(** Split a statement about every element of a list written out in full
    into one goal for each element. *)
Ltac each := repeat first [apply Forall_nil | apply Forall_cons].

(** Membership in, or exclusion from, a list written out in full. *)
Ltac listed := simpl; intuition (discriminate || congruence).

(** ** Lines of a text *)

Module LinesFacts.

Import Source Lines.

Lemma append_empty_r (s : string) : (s ++ "")%string = s.
Proof. induction s as [|c s IH]; simpl; [reflexivity | now rewrite IH]. Qed.

Lemma append_assoc (a b c : string) :
  ((a ++ b) ++ c)%string = (a ++ (b ++ c))%string.
Proof. induction a as [|x a IH]; simpl; [reflexivity | now rewrite IH]. Qed.

(** Every line feed starts a new line. *)
Lemma split_lines_aux_length (s cur : string) :
  List.length (split_lines_aux s cur) = S (count_char LF s).
Proof.
  revert cur; induction s as [|c s IH]; intros cur; simpl.
  - reflexivity.
  - destruct (Ascii.eqb c LF); simpl; now rewrite IH.
Qed.

Lemma removelast_length {A : Type} (l : list A) :
  List.length (removelast l) = pred (List.length l).
Proof.
  induction l as [|x l IH]; [reflexivity|].
  destruct l as [|y l]; [reflexivity|].
  change (removelast (x :: y :: l)) with (x :: removelast (y :: l)).
  simpl List.length in *. now rewrite IH.
Qed.

(** A text has as many lines as it has line feeds. *)
Lemma line_count_newlines (s : string) :
  line_count s = newline_count s.
Proof.
  unfold line_count, complete_lines, split_lines.
  now rewrite removelast_length, split_lines_aux_length.
Qed.

(** The lines and the trailing text make up the whole text again. *)
Lemma lines_and_trailing (s : string) :
  split_lines s = complete_lines s ++ [trailing s].
Proof.
  unfold complete_lines, trailing. apply app_removelast_last.
  unfold split_lines. intros H.
  pose proof (split_lines_aux_length s EmptyString) as Hl.
  rewrite H in Hl. discriminate.
Qed.

(** Reading a stretch without line feeds only extends the current line. *)
Lemma split_lines_aux_app (l rest cur : string) :
  count_char LF l = 0 ->
  split_lines_aux (l ++ rest) cur = split_lines_aux rest (cur ++ l).
Proof.
  revert cur; induction l as [|c l IH]; intros cur H; simpl in *.
  - now rewrite append_empty_r.
  - destruct (Ascii.eqb c LF) eqn:E; [discriminate|].
    rewrite IH by assumption.
    now rewrite append_assoc.
Qed.

Lemma split_lines_aux_LF (rest cur : string) :
  split_lines_aux (String LF rest) cur
  = cur :: split_lines_aux rest EmptyString.
Proof. reflexivity. Qed.

Lemma split_lines_aux_join (ls : list string) (l cur : string) :
  Forall (fun x => count_char LF x = 0) (l :: ls) ->
  split_lines_aux (join_lines (l :: ls)) cur = (cur ++ l)%string :: ls.
Proof.
  revert l cur; induction ls as [|m ls IH]; intros l cur H.
  - inversion H as [|? ? Hl _]; subst.
    rewrite <- (append_empty_r (join_lines [l])).
    rewrite split_lines_aux_app by assumption. reflexivity.
  - inversion H as [|? ? Hl Hrest]; subst.
    change (join_lines (l :: m :: ls))
      with (l ++ String LF (join_lines (m :: ls)))%string.
    rewrite split_lines_aux_app by assumption.
    rewrite split_lines_aux_LF.
    now rewrite (IH m EmptyString Hrest).
Qed.

(** Splitting undoes joining, as long as no line holds a line feed. *)
Lemma split_join (ls : list string) :
  ls <> [] ->
  Forall (fun x => count_char LF x = 0) ls ->
  split_lines (join_lines ls) = ls.
Proof.
  destruct ls as [|l ls]; [congruence|]; intros _ H.
  unfold split_lines. now rewrite split_lines_aux_join.
Qed.

Lemma helper_lines_clean :
  Forall (fun x => count_char LF x = 0) helper_pbil_h_lines.
Proof. repeat constructor. Qed.

Lemma helper_split : split_lines helper_pbil_h = helper_pbil_h_lines.
Proof.
  apply split_join; [discriminate | exact helper_lines_clean].
Qed.

End LinesFacts.

(** ** What the parser reads in the header *)

Module InterfaceFacts.

Import Source Lines Lexer Syntax Parser Header.

(** The parser reads exactly the five declarations written down in
    [Header], in the order of the file. *)
Lemma helper_items : items helper_pbil_h = map IProto declared.
Proof. vm_compute. reflexivity. Qed.

Lemma helper_prototypes : prototypes helper_pbil_h = declared.
Proof. unfold prototypes. rewrite helper_items. reflexivity. Qed.

Lemma after_incl (stop : token) (ts r : list token) :
  after stop ts = Some r -> incl r ts.
Proof.
  induction ts as [|t ts IH]; simpl; [discriminate|].
  destruct (token_eqb t stop).
  - intros [= <-]. apply incl_tl, incl_refl.
  - intros H. apply incl_tl, IH, H.
Qed.

(** The reader calls an item a function definition only when a body,
    opened by a brace, follows its parameter list. *)
Lemma fundef_has_brace (ts us : list token) :
  classify_item ts = IFunDef us -> has_brace ts = true.
Proof.
  unfold classify_item.
  destruct (is_type_definition ts); [discriminate|].
  destruct (after TLParen ts) as [inside|] eqn:E1; [|discriminate].
  destruct (after TRParen inside) as [[|t tail]|] eqn:E2; try discriminate.
  intros H.
  assert (t = TLBrace) as ->.
  { destruct t; try discriminate; [|reflexivity].
    destruct tail; [|discriminate].
    destruct (parse_typed_name _) as [[? ?]|]; [|discriminate].
    destruct (parse_params _); discriminate. }
  unfold has_brace. apply existsb_exists. exists TLBrace. split.
  - apply (after_incl _ _ _ E1), (after_incl _ _ _ E2). now left.
  - reflexivity.
Qed.

(** A type definition starts with [typedef], [struct], [union] or
    [enum]. *)
Lemma typedef_starts_with_keyword (ts us : list token) :
  classify_item ts = ITypeDef us -> runs_to_semicolon ts = true.
Proof.
  unfold classify_item.
  destruct (is_type_definition ts) eqn:E.
  - intros _. unfold is_type_definition in E. unfold runs_to_semicolon.
    destruct ts as [|[k| | | | | | | |c] r]; try discriminate.
    apply orb_true_iff in E. apply orb_true_iff.
    destruct E as [E|E]; [now left|right].
    now apply andb_true_iff in E.
  - destruct (after TLParen ts) as [inside|]; [|discriminate].
    destruct (after TRParen inside) as [[|[] [|? ?]]|]; try discriminate;
      destruct (parse_typed_name _) as [[? ?]|]; try discriminate;
      destruct (parse_params _); discriminate.
Qed.

(** The reader does recognise bodies and type definitions where a file
    has them. *)
Example reader_sees_definitions :
  map (fun i => match i with
                | IProto _ => 0 | IFunDef _ => 1
                | ITypeDef _ => 2 | IOther _ => 3
                end)
      (items "typedef struct { int n; } problem; int id(int x) { return x; } struct pair { int a; }; int g; int* best(void);")
  = [2; 1; 2; 3; 0].
Proof. vm_compute. reflexivity. Qed.

End InterfaceFacts.

(** ** The interface declared by [helper_pbil.h] *)

Import Source Lines Lexer Syntax Parser Header.

(** C1: the header declares exactly five functions, one for each PBIL
    helper operation: [generate_population], [update_prob_vector],
    [findBest], [findWorst] and [mutate].  Every top-level item of the
    header is the prototype of one of the five, and each of the five
    names is declared exactly once. *)
Theorem five_prototypes :
  List.length (items helper_pbil_h) = 5
  /\ Forall (fun i => exists p, i = IProto p /\ In (fname p) helper_names)
            (items helper_pbil_h)
  /\ Forall (fun n => times_declared helper_pbil_h n = 1) helper_names
  /\ map fname (prototypes helper_pbil_h) = helper_names.
Proof.
  unfold times_declared.
  rewrite InterfaceFacts.helper_prototypes, InterfaceFacts.helper_items.
  split; [reflexivity|].
  split; [|split; [|reflexivity]].
  - each; eexists; (split; [reflexivity|]); listed.
  - each; reflexivity.
Qed.



(** C3: [update_prob_vector] takes a best individual [best_vector] and a
    worst individual [worst_vector], both [int*], and two distinct rate
    parameters [lr] and [negative_lr], both [double]; it returns a
    probability vector, [double*].  Best and worst individual are two
    different inputs of the function, so its result may depend on
    both. *)
Theorem update_prob_vector_signature :
  exists p,
    declaration helper_pbil_h "update_prob_vector" = Some p
    /\ ret p = double_p
    /\ nth_error (params p) 0 = Some (P double_p "prob_vector")
    /\ nth_error (params p) 2 = Some (P int_p "best_vector")
    /\ nth_error (params p) 3 = Some (P int_p "worst_vector")
    /\ nth_error (params p) 4 = Some (P Tdouble "lr")
    /\ nth_error (params p) 5 = Some (P Tdouble "negative_lr")
    /\ param_named "best_vector" p <> param_named "worst_vector" p
    /\ param_named "lr" p <> param_named "negative_lr" p
    /\ NoDup (map pname (params p)).
Proof.
  unfold declaration. rewrite InterfaceFacts.helper_prototypes.
  exists update_prob_vector.
  repeat (split; [reflexivity || discriminate|]).
  simpl. repeat constructor; listed.
Qed.

(** C4: the header is declaration-only.  Every top-level item is a
    prototype: none is a function with a body, a type definition or
    anything else; the code of the header holds no brace at all; no type
    is given a definition; the supplied material is this one header, and
    it declares no [main]. *)
Theorem declaration_only :
  Forall (fun i => exists p, i = IProto p) (items helper_pbil_h)
  /\ Forall (fun i => forall ts, i <> IFunDef ts /\ i <> ITypeDef ts
                                 /\ i <> IOther ts)
            (items helper_pbil_h)
  /\ has_brace (code_tokens (parse_lines helper_pbil_h)) = false
  /\ defined_types helper_pbil_h = []
  /\ map fst supplied = ["helper_pbil.h"]
  /\ declaration helper_pbil_h "main" = None.
Proof.
  unfold defined_types, declaration.
  rewrite InterfaceFacts.helper_prototypes, InterfaceFacts.helper_items.
  split; [each; eexists; reflexivity|].
  split; [each; intros ts; repeat split; discriminate|].
  split; [vm_compute; reflexivity|].
  repeat split.
Qed.

(** C5: the type [problem] is referenced in the header, as the parameter
    type [problem*] of [findBest] and of [findWorst] and nowhere else,
    but no supplied file defines it: the header defines no type, and the
    one file it includes, [datatypes.h], is not among the supplied
    files. *)
Theorem problem_referenced_not_defined :
  map (fun p => (fname p, referenced_by p)) (prototypes helper_pbil_h)
  = [ ("generate_population", []); ("update_prob_vector", []);
      ("findBest", ["problem"]); ("findWorst", ["problem"]);
      ("mutate", []) ]
  /\ option_map (param_named "prob") (declaration helper_pbil_h "findBest")
     = Some [P problem_p "prob"]
  /\ option_map (param_named "prob") (declaration helper_pbil_h "findWorst")
     = Some [P problem_p "prob"]
  /\ Forall (fun p => named_in (ret p) = []) (prototypes helper_pbil_h)
  /\ defined_types helper_pbil_h = []
  /\ includes helper_pbil_h = ["datatypes.h"]
  /\ Forall (fun f => ~ In f (map fst supplied)) (includes helper_pbil_h)
  /\ Forall (fun file => defined_types (snd file) = []) supplied.
Proof.
  assert (includes helper_pbil_h = ["datatypes.h"]) as Hinc
    by (vm_compute; reflexivity).
  unfold defined_types, declaration. rewrite Hinc.
  unfold supplied; simpl snd.
  rewrite InterfaceFacts.helper_prototypes, InterfaceFacts.helper_items.
  repeat (split; [reflexivity|]).
  split; [each; reflexivity|].
  repeat (split; [reflexivity|]).
  split; each; [listed | reflexivity].
Qed.

(** C6: no error-reporting convention is declared.  Every declared
    result type is a payload type, [int**], [double*] or [int*]: none is
    a scalar status code, [void], or a named error type.  Every pointer
    parameter is one of the data entities (population, probability
    vector, individual, problem handle): none is an out-parameter for a
    failure. *)
Theorem no_error_convention :
  Forall (fun p => In (ret p) [int_pp; double_p; int_p])
         (prototypes helper_pbil_h)
  /\ map (fun p => (fname p, ret p)) (prototypes helper_pbil_h)
     = [ ("generate_population", int_pp); ("update_prob_vector", double_p);
         ("findBest", int_p); ("findWorst", int_p); ("mutate", double_p) ]
  /\ Forall (fun p => is_pointer (ret p) = true /\ named_in (ret p) = [])
            (prototypes helper_pbil_h)
  /\ Forall (fun p =>
       incl (map pname (filter (fun q => is_pointer (ptype q)) (params p)))
            [ "current_population"; "prob_vector"; "best_vector";
              "worst_vector"; "prob" ])
       (prototypes helper_pbil_h).
Proof.
  rewrite InterfaceFacts.helper_prototypes.
  split; [each; listed|].
  split; [reflexivity|].
  split; [each; split; reflexivity|].
  each; intros n Hn; simpl in Hn; listed.
Qed.

(** C7: the header is 22 lines long: it holds 22 line feeds, each
    ending one line.  The text left after the last of them, [#endif]
    and a space, is ended by no line feed.  The header contains
    declarations only: every line of it, and that trailing text, is
    blank, a comment, a preprocessor directive, or a function
    prototype. *)
Theorem twenty_two_lines :
  line_count helper_pbil_h = 22
  /\ newline_count helper_pbil_h = 22
  /\ complete_lines helper_pbil_h = firstn 22 helper_pbil_h_lines
  /\ trailing helper_pbil_h = "#endif "
  /\ ends_with_newline helper_pbil_h = false
  /\ Forall (fun l => match l with
                      | LCode ts => exists p, classify_item ts = IProto p
                      | LBlank | LComment _ | LDirective _ => True
                      end)
            (parse_lines helper_pbil_h).
Proof.
  assert (complete_lines helper_pbil_h = firstn 22 helper_pbil_h_lines)
    as Hc.
  { unfold complete_lines. rewrite LinesFacts.helper_split. reflexivity. }
  assert (line_count helper_pbil_h = 22) as Hn.
  { unfold line_count. rewrite Hc. reflexivity. }
  split; [exact Hn|].
  split; [now rewrite <- LinesFacts.line_count_newlines|].
  split; [exact Hc|].
  split; [unfold trailing; rewrite LinesFacts.helper_split; reflexivity|].
  split; [vm_compute; reflexivity|].
  unfold parse_lines. rewrite LinesFacts.helper_split.
  unfold helper_pbil_h_lines. simpl map.
  each; try exact I; vm_compute; eexists; reflexivity.
Qed.

(** C8: the two search interfaces are asymmetric.  [findWorst] takes an
    [int max_fitness] that [findBest] does not take; with that parameter
    left out, the parameters of [findWorst] are those of [findBest]
    (population, [pop_size], [length], [problem*]), in the same order;
    both return an individual, [int*]. *)
Theorem find_asymmetry :
  exists b w,
    declaration helper_pbil_h "findBest" = Some b
    /\ declaration helper_pbil_h "findWorst" = Some w
    /\ params b = [ P int_pp "current_population"; P Tint "pop_size";
                    P Tint "length"; P problem_p "prob" ]
    /\ param_named "max_fitness" w = [P Tint "max_fitness"]
    /\ has_param "max_fitness" b = false
    /\ drop_param "max_fitness" w = params b
    /\ List.length (params w) = S (List.length (params b))
    /\ ret b = int_p
    /\ ret w = int_p.
Proof.
  unfold declaration. rewrite InterfaceFacts.helper_prototypes.
  exists findBest, findWorst.
  repeat split.
Qed.

(** C9: [mutate] takes only the probability vector, a mutation
    probability and a mutation shift.  Unlike [generate_population] and
    [update_prob_vector], which both take [int length], it has no
    parameter named [length] and no integer parameter at all: nothing in
    its signature carries the extent of the probability vector. *)
Theorem mutate_without_length :
  exists m g u,
    declaration helper_pbil_h "mutate" = Some m
    /\ declaration helper_pbil_h "generate_population" = Some g
    /\ declaration helper_pbil_h "update_prob_vector" = Some u
    /\ params m = [ P double_p "prob_vector"; P Tdouble "mut_probability";
                    P Tdouble "mut_shift" ]
    /\ has_param "length" m = false
    /\ existsb (fun q => ctype_eqb (ptype q) Tint) (params m) = false
    /\ param_named "length" g = [P Tint "length"]
    /\ param_named "length" u = [P Tint "length"]
    /\ Forall (fun p => has_param "prob_vector" p = true ->
                        has_param "length" p = false -> p = m)
              (prototypes helper_pbil_h).
Proof.
  unfold declaration. rewrite InterfaceFacts.helper_prototypes.
  exists mutate, generate_population, update_prob_vector.
  repeat (split; [reflexivity|]).
  each; simpl; intros; (reflexivity || discriminate).
Qed.

(** ** The include guard *)

Module GuardFacts.

Import Source Lines Lexer Syntax Parser Preprocessor Header.

Lemma helper_lines_eq : parse_lines helper_pbil_h = helper_lines.
Proof. vm_compute. reflexivity. Qed.

Lemma from_helper_app (a b : list (origin * list token)) :
  from_helper (a ++ b) = from_helper a ++ from_helper b.
Proof. unfold from_helper. now rewrite filter_app, map_app. Qed.

Lemma emit_all_defined (o : origin) (code : list (list token)) (e : env) :
  defined (fold_left (fun e ts => emit o ts e) code e) = defined e.
Proof.
  revert e; induction code as [|ts code IH]; intros e; simpl.
  - reflexivity.
  - now rewrite IH.
Qed.



Lemma is_defined_define (m n : string) (e : env) :
  String.eqb m n = false -> is_defined m (define n e) = is_defined m e.
Proof. intros H. unfold is_defined, define. simpl. now rewrite H. Qed.

Lemma is_defined_undef (m n : string) (e : env) :
  String.eqb m n = false -> is_defined m (undef n e) = is_defined m e.
Proof.
  intros H. unfold is_defined, undef. simpl.
  induction (defined e) as [|x l IH]; [reflexivity|].
  simpl. destruct (String.eqb n x) eqn:Enx; simpl.
  - apply String.eqb_eq in Enx. subst x. now rewrite H.
  - now rewrite IH.
Qed.

(** With the guard macro defined, including the header changes
    nothing. *)
Lemma include_helper_guarded (dt : env -> env) (e : env) :
  is_defined HELPER_PBIL_H e = true -> include_helper dt e = e.
Proof.
  intros H. unfold include_helper. rewrite helper_lines_eq.
  unfold helper_lines.
  cbn [pp_lines pp_line].
  fold HELPER_PBIL_H. rewrite H. reflexivity.
Qed.

(** With the guard macro undefined, including the header defines it,
    includes [datatypes.h], and lets the code of the header through. *)
Lemma include_helper_first (dt : env -> env) (e : env) :
  is_defined HELPER_PBIL_H e = false ->
  include_helper dt e
  = fold_left (fun e ts => emit helper_origin ts e) helper_code
              (dt (define HELPER_PBIL_H e)).
Proof.
  intros H. unfold include_helper. rewrite helper_lines_eq.
  unfold helper_lines.
  cbn [pp_lines pp_line].
  fold HELPER_PBIL_H. rewrite H. reflexivity.
Qed.

End GuardFacts.

Import Preprocessor.

Section IncludeGuard.

(** The effect of including [datatypes.h], which the supplied source
    does not contain.  It is assumed not to undefine the guard macro of
    [helper_pbil.h], and to let through no line of [helper_pbil.h]. *)
Variable datatypes_h : env -> env.

Hypothesis datatypes_keeps_guard :
  forall e, is_defined HELPER_PBIL_H e = true ->
            is_defined HELPER_PBIL_H (datatypes_h e) = true.

Hypothesis datatypes_lets_no_helper_code :
  forall e, from_helper (output (datatypes_h e)) = from_helper (output e).













End IncludeGuard.


(** The steps of the sample unit leave the header alone. *)
Lemma sample_actions_leave_header_alone :
  Forall leaves_header_alone sample_actions.
Proof.
  unfold sample_actions.
  repeat (apply Forall_cons; [|]); try apply Forall_nil; simpl;
    try exact I; split; intros e.
  - now apply GuardFacts.is_defined_define.
  - reflexivity.
  - reflexivity.
  - simpl. rewrite GuardFacts.from_helper_app. simpl. apply app_nil_r.
  - now apply GuardFacts.is_defined_undef.
  - reflexivity.
Qed.



(** * Further properties of the interface *)


(** Every declared function takes a pointer as its first parameter, and
    its result has either the type of that parameter (the population or
    probability vector handed in) or the type of what it points to (an
    individual of the population handed in). *)
Theorem result_follows_first_parameter :
  Forall (fun p =>
            exists q, hd_error (params p) = Some q
                      /\ is_pointer (ptype q) = true
                      /\ (ret p = ptype q \/ Tptr (ret p) = ptype q))
         (prototypes helper_pbil_h)
  /\ map (fun p => (fname p,
                    match hd_error (params p) with
                    | Some q => ctype_eqb (ret p) (ptype q)
                    | None => false
                    end))
         (prototypes helper_pbil_h)
     = [ ("generate_population", true); ("update_prob_vector", true);
         ("findBest", false); ("findWorst", false); ("mutate", true) ].
Proof.
  rewrite InterfaceFacts.helper_prototypes.
  split; [|reflexivity].
  each; eexists; (split; [reflexivity|]); (split; [reflexivity|]);
    (now left) || (now right).
Qed.

(** * Further properties of the include guard *)

Module GuardMore.

Import Source Lines Lexer Syntax Parser Preprocessor Header.


Lemma is_defined_define_keeps (m n : string) (e : env) :
  is_defined m e = true -> is_defined m (define n e) = true.
Proof.
  unfold is_defined, define. simpl. intros ->. apply orb_true_r.
Qed.

(** With the guard macro defined, a step that never undefines it keeps
    it defined and lets nothing of the header through. *)
Lemma act_predefined (dt : env -> env) (a : action) (e : env) :
  never_undefines a ->
  is_defined HELPER_PBIL_H e = true ->
  is_defined HELPER_PBIL_H (act dt a e) = true
  /\ from_helper (output (act dt a e)) = from_helper (output e).
Proof.
  destruct a as [|f]; simpl.
  - intros _ Hd. rewrite GuardFacts.include_helper_guarded by assumption.
    now split.
  - intros [Hk Ho] Hd. split; [now apply Hk | apply Ho].
Qed.

Lemma run_predefined (dt : env -> env) (acts : list action) (e : env) :
  Forall never_undefines acts ->
  is_defined HELPER_PBIL_H e = true ->
  is_defined HELPER_PBIL_H (run dt acts e) = true
  /\ from_helper (output (run dt acts e)) = from_helper (output e).
Proof.
  revert e; induction acts as [|a acts IH]; intros e Ha Hd.
  - now split.
  - inversion Ha as [|? ? H1 H2]; subst.
    destruct (act_predefined dt a e H1 Hd) as [H3 H4].
    destruct (IH (act dt a e) H2 H3) as [H5 H6].
    split; [exact H5|]. change (run dt (a :: acts) e)
      with (run dt acts (act dt a e)). now rewrite H6.
Qed.

(** A step that leaves the header alone never undefines the guard. *)
Lemma leaves_alone_never_undefines (a : action) :
  leaves_header_alone a -> never_undefines a.
Proof.
  destruct a as [|f]; simpl; [exact (fun H => H)|].
  intros [Hg Ho]. split; [|exact Ho].
  intros e He. now rewrite Hg.
Qed.

Lemma sample_actions_never_undefine :
  Forall never_undefines sample_actions.
Proof.
  apply (Forall_impl _ leaves_alone_never_undefines).
  exact sample_actions_leave_header_alone.
Qed.


End GuardMore.



(** When [HELPER_PBIL_H] is already defined, including the header
    changes nothing: no declaration is let through, and [datatypes.h]
    is not read.  So in a unit that has the macro defined and never
    undefines it, the inclusions of the header, however many, bring
    none of its declarations: what the header has let through stays as
    it was. *)
Theorem predefined_guard_suppresses (dt : env -> env) (acts : list action)
        (e : env) :
  Forall never_undefines acts ->
  is_defined HELPER_PBIL_H e = true ->
  helper_prototypes (run dt acts e) = helper_prototypes e
  /\ is_defined HELPER_PBIL_H (run dt acts e) = true
  /\ forall e0, is_defined HELPER_PBIL_H e0 = true -> include_helper dt e0 = e0.
Proof.
  intros Ha Hd.
  destruct (GuardMore.run_predefined dt acts e Ha Hd) as [H1 H2].
  split; [unfold helper_prototypes; now rewrite H2|].
  split; [exact H1|].
  intros e0. apply GuardFacts.include_helper_guarded.
Qed.

Lemma predefined_guard_suppresses_witness :
  Forall never_undefines sample_actions
  /\ is_defined HELPER_PBIL_H
       {| defined := ["HELPER_PBIL_H"]; output := [] |} = true
  /\ helper_prototypes
       (run sample_datatypes_h sample_actions
            {| defined := ["HELPER_PBIL_H"]; output := [] |})
     = [].
Proof.
  split; [exact GuardMore.sample_actions_never_undefine|].
  split; [reflexivity|].
  exact (proj1 (predefined_guard_suppresses
                  sample_datatypes_h sample_actions
                  {| defined := ["HELPER_PBIL_H"]; output := [] |}
                  GuardMore.sample_actions_never_undefine eq_refl)).
Defined.





(** The header defines its guard macro before it includes
    [datatypes.h].  So if [datatypes.h] includes [helper_pbil.h] back,
    that inner inclusion is empty: the outcome is the same as if
    [datatypes.h] did not include it. *)
Theorem circular_include_cut (before_it after_it inner : env -> env)
        (e : env) :
  (forall x, is_defined HELPER_PBIL_H x = true ->
             is_defined HELPER_PBIL_H (before_it x) = true) ->
  include_helper (fun x => after_it (include_helper inner (before_it x))) e
  = include_helper (fun x => after_it (before_it x)) e.
Proof.
  intros Hk.
  destruct (is_defined HELPER_PBIL_H e) eqn:Hd.
  - rewrite (GuardFacts.include_helper_guarded
               (fun x => after_it (before_it x))) by assumption.
    now rewrite GuardFacts.include_helper_guarded.
  - rewrite (GuardFacts.include_helper_first
               (fun x => after_it (before_it x))) by assumption.
    rewrite (GuardFacts.include_helper_first
               (fun x => after_it (include_helper inner (before_it x))))
      by assumption.
    rewrite (GuardFacts.include_helper_guarded inner); [reflexivity|].
    apply Hk. reflexivity.
Qed.

Lemma circular_include_cut_witness :
  (forall x, is_defined HELPER_PBIL_H x = true ->
             is_defined HELPER_PBIL_H (define "DATATYPES_H" x) = true)
  /\ include_helper circular_datatypes_h {| defined := []; output := [] |}
     = include_helper sample_datatypes_h {| defined := []; output := [] |}.
Proof.
  assert (forall x, is_defined HELPER_PBIL_H x = true ->
                    is_defined HELPER_PBIL_H (define "DATATYPES_H" x) = true)
    as Hk by (intros x H; exact H).
  split; [exact Hk|].
  exact (circular_include_cut
           (define "DATATYPES_H")
           (emit (FromFile "datatypes.h")
                 (tokenize "typedef struct problem problem;"))
           (fun e => e)
           {| defined := []; output := [] |} Hk).
Defined.

(** Including the header undefines nothing: a macro that is defined
    before the inclusion is still defined after it, provided
    [datatypes.h] does not undefine it. *)
Theorem inclusion_keeps_macros (dt : env -> env) (m : string) (e : env) :
  (forall x, is_defined m x = true -> is_defined m (dt x) = true) ->
  is_defined m e = true ->
  is_defined m (include_helper dt e) = true.
Proof.
  intros Hk Hm.
  destruct (is_defined HELPER_PBIL_H e) eqn:Hd.
  - now rewrite GuardFacts.include_helper_guarded.
  - rewrite GuardFacts.include_helper_first by assumption.
    unfold is_defined. rewrite GuardFacts.emit_all_defined.
    apply Hk. now apply GuardMore.is_defined_define_keeps.
Qed.

Lemma inclusion_keeps_macros_witness :
  is_defined "NDEBUG" {| defined := ["NDEBUG"]; output := [] |} = true
  /\ is_defined "NDEBUG"
       (include_helper sample_datatypes_h
                       {| defined := ["NDEBUG"]; output := [] |}) = true.
Proof.
  split; [reflexivity|].
  apply (inclusion_keeps_macros sample_datatypes_h "NDEBUG").
  - intros x H. exact H.
  - reflexivity.
Defined.
